(** * BookmarkServer: a shallow embedding of src/BookmarkServer.py

    The server keeps a dictionary [memory] from short names to long URIs,
    answers GET requests (form page or redirect) and POST requests
    (registration after a liveness check of the long URI).

    Modelling choices.
    - A Python [str] is a [string]: the text as a sequence of bytes.
    - The dictionary [memory] is a [gmap string string].
    - The functions of the Python standard library that the handlers call
      on text ([urllib.parse.unquote], [urllib.parse.parse_qs],
      [html.escape], the quoting and printing of [http.cookies]) are written
      out on byte strings after the CPython sources.  [unquote] decodes
      percent escapes byte by byte; the substitution of U+FFFD for byte runs
      that are not UTF-8 is left out.
    - What comes from outside is data of the model: the outcome of
      [requests.get] for each URI, the request path, the Cookie header as
      [cookies.SimpleCookie] loads it, and the decoded body of a POST.
    - A Python exception is an explicit [Raise]; one that leaves a handler
      means that the handler sent no response.
    - Requests are handled one after the other. *)

From Stdlib Require Import ZArith Ascii DecimalString.
From stdpp Require Import base option list gmap strings sorting.

Local Open Scope Z_scope.

(** ** Python strings *)

Module PyStr.

(** [s[1:]] *)
Definition tail (s : string) : string :=
  match s with
  | EmptyString => EmptyString
  | String _ t => t
  end.

(** [s.split(sep)] for a separator of one character: never an empty list. *)
Fixpoint split (sep : ascii) (s : string) : list string :=
  match s with
  | EmptyString => [EmptyString]
  | String c t =>
      if Ascii.eqb c sep then EmptyString :: split sep t
      else match split sep t with
           | w :: ws => String c w :: ws
           | [] => [String c EmptyString]
           end
  end.

(** [s.split(sep, 1)]: the text before the first separator and, when there
    is a separator, the text after it. *)
Fixpoint split1 (sep : ascii) (s : string) : string * option string :=
  match s with
  | EmptyString => (EmptyString, None)
  | String c t =>
      if Ascii.eqb c sep then (EmptyString, Some t)
      else let '(a, b) := split1 sep t in (String c a, b)
  end.

(** [s.replace(a, b)] for single characters. *)
Fixpoint replace (a b : ascii) (s : string) : string :=
  match s with
  | EmptyString => EmptyString
  | String c t => String (if Ascii.eqb c a then b else c) (replace a b t)
  end.

(** [sep.join(l)] *)
Fixpoint join (sep : string) (l : list string) : string :=
  match l with
  | [] => EmptyString
  | [x] => x
  | x :: l' => x +:+ sep +:+ join sep l'
  end.

(** [c in s] for a character. *)
Fixpoint mem (c : ascii) (s : string) : bool :=
  match s with
  | EmptyString => false
  | String d t => Ascii.eqb c d || mem c t
  end.

(** Every character of [s] satisfies [p]. *)
Fixpoint all (p : ascii -> bool) (s : string) : bool :=
  match s with
  | EmptyString => true
  | String c t => p c && all p t
  end.

(** Some character of [s] satisfies [p]. *)
Fixpoint any (p : ascii -> bool) (s : string) : bool :=
  match s with
  | EmptyString => false
  | String c t => p c || any p t
  end.

(** [bool(s)]: a string is true when it is not empty. *)
Definition truthy (s : string) : bool :=
  match s with
  | EmptyString => false
  | String _ _ => true
  end.

(** [str.translate]: every character replaced by its image. *)
Fixpoint translate (f : ascii -> string) (s : string) : string :=
  match s with
  | EmptyString => EmptyString
  | String c t => f c +:+ translate f t
  end.

Definition nl : string := String (ascii_of_nat 10) EmptyString.
Definition dquote : ascii := ascii_of_nat 34.
Definition backslash : ascii := ascii_of_nat 92.

End PyStr.

(** ** urllib.parse *)

Module UrlParse.

(** Value of a hexadecimal digit, upper or lower case. *)
Definition hexval (c : ascii) : option N :=
  let n := N_of_ascii c in
  if ((48 <=? n) && (n <=? 57))%N then Some (n - 48)%N
  else if ((65 <=? n) && (n <=? 70))%N then Some (n - 55)%N
  else if ((97 <=? n) && (n <=? 102))%N then Some (n - 87)%N
  else None.

(** [unquote(s)]: a percent sign followed by two hexadecimal digits is the
    byte they denote; any other percent sign stays. *)
Fixpoint unquote (s : string) : string :=
  match s with
  | EmptyString => EmptyString
  | String c t =>
      if Ascii.eqb c "%" then
        match t with
        | String h (String l t') =>
            match hexval h, hexval l with
            | Some a, Some b => String (ascii_of_N (16 * a + b)) (unquote t')
            | _, _ => String c (unquote t)
            end
        | _ => String c (unquote t)
        end
      else String c (unquote t)
  end.

(** One field of a query string, as the loop of [parse_qsl] treats it with
    [keep_blank_values] and [strict_parsing] false: an empty field, a field
    without equals sign and a field with an empty value are skipped. *)
Definition parse_field (name_value : string) : option (string * string) :=
  if negb (PyStr.truthy name_value) then None
  else match PyStr.split1 "=" name_value with
       | (_, None) => None
       | (n, Some v) =>
           if PyStr.truthy v
           then Some (unquote (PyStr.replace "+" " " n),
                      unquote (PyStr.replace "+" " " v))
           else None
       end.

(** [parse_qsl(qs)] with the default separator. *)
Definition parse_qsl (qs : string) : list (string * string) :=
  let query_args := if PyStr.truthy qs then PyStr.split "&" qs else [] in
  omap parse_field query_args.

(** The loop of [parse_qs]: a value is appended to the list of its name. *)
Definition add_pair (parsed_result : gmap string (list string))
    (nv : string * string) : gmap string (list string) :=
  match parsed_result !! nv.1 with
  | Some vs => <[nv.1 := vs ++ [nv.2]]> parsed_result
  | None => <[nv.1 := [nv.2]]> parsed_result
  end.

(** [parse_qs(qs)] *)
Definition parse_qs (qs : string) : gmap string (list string) :=
  foldl add_pair ∅ (parse_qsl qs).

End UrlParse.

(** ** html.escape *)

Module Html.

(** [html.escape(s)] with [quote=True]: the five special characters are
    replaced by their entities. *)
Definition escape_char (c : ascii) : string :=
  if Ascii.eqb c "&" then "&amp;"
  else if Ascii.eqb c "<" then "&lt;"
  else if Ascii.eqb c ">" then "&gt;"
  else if Ascii.eqb c PyStr.dquote then "&quot;"
  else if Ascii.eqb c "'" then "&#x27;"
  else String c EmptyString.

Definition escape (s : string) : string := PyStr.translate escape_char s.

End Html.

(** ** Exceptions *)

Inductive exn : Type :=
| KeyError (key : string)
| IndexError
| CookieError.

(** The outcome of a Python expression: a value, or an exception raised. *)
Inductive result (A : Type) : Type :=
| Ok (a : A)
| Raise (e : exn).
Arguments Ok {A} a.
Arguments Raise {A} e.

#[global] Instance result_ret : MRet result := fun A a => Ok a.
#[global] Instance result_bind : MBind result := fun A B f r =>
  match r with
  | Ok a => f a
  | Raise e => Raise e
  end.

(** [d[k]] on a dictionary. *)
Definition getitem {V : Type} (d : gmap string V) (k : string) : result V :=
  match d !! k with
  | Some v => Ok v
  | None => Raise (KeyError k)
  end.

(** [l[0]] on a list. *)
Definition getitem0 {V : Type} (l : list V) : result V :=
  match l with
  | v :: _ => Ok v
  | [] => Raise IndexError
  end.

(** [k in d] and [k not in d] on a dictionary. *)
Definition contains {V : Type} (d : gmap string V) (k : string) : bool :=
  match d !! k with
  | Some _ => true
  | None => false
  end.

(** ** http.cookies *)

Module Cookies.

Definition _LegalChars : string :=
  "abcdefghijklmnopqrstuvwxyzABCDEFGHIJKLMNOPQRSTUVWXYZ0123456789!#$%&'*+-.^_`|~:".
Definition _UnescapedChars : string := _LegalChars +:+ " ()/<=>?@[]{}".

(** The three octal digits of a byte, after a backslash. *)
Definition octal_escape (c : ascii) : string :=
  let n := N_of_ascii c in
  let digit d := ascii_of_N (48 + d) in
  String PyStr.backslash
    (String (digit (n / 64)%N)
       (String (digit ((n / 8) mod 8)%N)
          (String (digit (n mod 8)%N) EmptyString))).

(** [_Translator]: a double quote and a backslash get a backslash before
    them, the characters of [_UnescapedChars] stay, every other byte is
    written in octal. *)
Definition _Translator (c : ascii) : string :=
  if Ascii.eqb c PyStr.dquote then String PyStr.backslash (String c EmptyString)
  else if Ascii.eqb c PyStr.backslash then String PyStr.backslash (String c EmptyString)
  else if PyStr.mem c _UnescapedChars then String c EmptyString
  else octal_escape c.

(** [_is_legal_key]: one or more characters, all of [_LegalChars]. *)
Definition _is_legal_key (s : string) : bool :=
  PyStr.truthy s && PyStr.all (fun c => PyStr.mem c _LegalChars) s.

Definition _quote (s : string) : string :=
  if _is_legal_key s then s
  else String PyStr.dquote (PyStr.translate _Translator s)
         +:+ String PyStr.dquote EmptyString.

(** [_has_control_character]: a byte below 32, or 127. *)
Definition _has_control_character (s : string) : bool :=
  PyStr.any (fun c => (N_of_ascii c <? 32)%N || (N_of_ascii c =? 127)%N) s.

(** A morsel with the two attributes the server sets; the other reserved
    attributes stay empty and are not printed. *)
Record Morsel : Type := {
  key : string;
  value : string;
  coded_value : string;
  max_age : option Z;
  domain : string
}.

(** [cookie[key] = val] on an empty [SimpleCookie]: the value is encoded
    with [_quote] and stored by [Morsel.set], which raises CookieError on
    an illegal key.  CPython releases that carry the control-character
    check of http.cookies also raise CookieError when the key, the value or
    the coded value holds a control character; [control_check] tells
    whether the running library has that check. *)
Definition setitem (control_check : bool) (k val : string) : result Morsel :=
  let coded_val := _quote val in
  if negb (_is_legal_key k) then Raise CookieError
  else if control_check
            && (_has_control_character k || _has_control_character val
                || _has_control_character coded_val)
  then Raise CookieError
  else Ok {| key := k; value := val; coded_value := coded_val;
             max_age := None; domain := EmptyString |}.

Definition set_max_age (n : Z) (m : Morsel) : Morsel :=
  {| key := key m; value := value m; coded_value := coded_value m;
     max_age := Some n; domain := domain m |}.

Definition set_domain (d : string) (m : Morsel) : Morsel :=
  {| key := key m; value := value m; coded_value := coded_value m;
     max_age := max_age m; domain := d |}.

(** [Morsel.OutputString()]: key and coded value, then the attributes that
    are set, in the order of their names, joined by semicolon and space. *)
Definition OutputString (m : Morsel) : string :=
  PyStr.join "; "
    ([key m +:+ "=" +:+ coded_value m]
     ++ (if PyStr.truthy (domain m) then ["Domain=" +:+ domain m] else [])
     ++ (match max_age m with
         | Some n => ["Max-Age=" +:+ NilZero.string_of_int (Z.to_int n)]
         | None => []
         end)).

End Cookies.


(** ** The server *)

(** *** The outside world *)

(** What [requests.get(uri, timeout=timeout)] does: it returns a response
    with a status code, or it raises an exception of the family
    [requests.RequestException] (timeout, connection failure, malformed
    URI). *)
Inductive get_result : Type :=
| Response (status_code : Z)
| RequestException.

(** The network at the time of a request: the outcome of a GET of each URI
    under each timeout. *)
Definition network : Type := string -> Z -> get_result.

(** A Python value that [CheckURI] can return. *)
Inductive pyvalue : Type :=
| PyTrue
| PyFalse
| PyNone.

(** [bool(v)], as the [if] of the caller takes it. *)
Definition truth (v : pyvalue) : bool :=
  match v with
  | PyTrue => true
  | PyFalse | PyNone => false
  end.

(** [CheckURI(uri, timeout)]: [True] on status 200, [False] on an exception
    caught; after any other status the function body ends without a
    [return], which in Python yields [None]. *)
Definition CheckURI (net : network) (uri : string) (timeout : Z) : pyvalue :=
  match net uri timeout with
  | Response status_code => if status_code =? 200 then PyTrue else PyNone
  | RequestException => PyFalse
  end.

(** The default of the parameter [timeout]. *)
Definition default_timeout : Z := 5.

(** *** Requests and responses *)

Inductive method : Type := GET | POST.

(** A Cookie header, by what [cookies.SimpleCookie] makes of it: the values
    of its cookies by key, or CookieError. *)
Inductive cookie_header : Type :=
| Morsels (jar : gmap string string)
| Malformed.

(** [cookies.SimpleCookie(header)] *)
Definition SimpleCookie (h : cookie_header) : result (gmap string string) :=
  match h with
  | Morsels jar => Ok jar
  | Malformed => Raise CookieError
  end.

(** A request as the handlers read it.
    - [path] is [self.path].
    - [cookie] is the Cookie header, [None] when the request has none.
    - [body] is the text [self.rfile.read(length).decode()] of a POST, for
      the length that the Content-length header gives. *)
Record request : Type := {
  command : method;
  path : string;
  cookie : option cookie_header;
  body : string
}.

(** What a handler sends: the status of [send_response], the headers of
    [send_header] in order, and the text written to [wfile]. *)
Record response : Type := {
  status : Z;
  headers : list (string * string);
  content : string
}.

(** *** The form *)

(** [name="value"] inside a tag. *)
Definition attr (name val : string) : string :=
  name +:+ "=" +:+ String PyStr.dquote val +:+ String PyStr.dquote EmptyString.

(** The template [form] before its placeholder, line by line. *)
Definition form_lines : list string := [
  "<!DOCTYPE html>";
  "<title>Bookmark Server</title>";
  "<form " +:+ attr "method" "POST" +:+ ">";
  "    <p>";
  "        <label>What's your name again?";
  "            <input " +:+ attr "type" "text" +:+ " " +:+ attr "name" "yourname" +:+ ">";
  "        </label>";
  "    </p>";
  "    <p>    ";
  "        <label>Long URI:";
  "            <input " +:+ attr "name" "longuri" +:+ ">";
  "        </label>";
  "        <br>";
  "        <label>Short name:";
  "            <input " +:+ attr "name" "shortname" +:+ ">";
  "        </label>";
  "        <br>";
  "        <button " +:+ attr "type" "submit" +:+ ">Save it!</button>";
  "    </p>";
  "</form>";
  "<p>URIs I know about:";
  "<pre>"
].

(** The template [form], as a function of what [form.format] puts at its
    placeholder: the text before the placeholder, [x], the text after. *)
Definition form (x : string) : string :=
  PyStr.join PyStr.nl form_lines +:+ PyStr.nl
  +:+ x
  +:+ PyStr.nl +:+ "</pre>" +:+ PyStr.nl.

(** *** The registry and the handlers *)

(** A handler runs on the shared dictionary [memory]: it ends with a value or
    an exception, and leaves a dictionary behind. *)
Definition Py (A : Type) : Type :=
  gmap string string -> result A * gmap string string.

#[global] Instance Py_ret : MRet Py := fun A a memory => (Ok a, memory).
#[global] Instance Py_bind : MBind Py := fun A B f c memory =>
  match c memory with
  | (Ok a, memory') => f a memory'
  | (Raise e, memory') => (Raise e, memory')
  end.

(** Evaluation of an expression that does not touch [memory]. *)
Definition eval {A : Type} (r : result A) : Py A := fun memory => (r, memory).

(** The current value of [memory]. *)
Definition read_memory : Py (gmap string string) := fun memory => (Ok memory, memory).

(** [memory[k] = v] *)
Definition memory_setitem (k v : string) : Py unit :=
  fun memory => (Ok tt, <[k := v]> memory).

(** [sorted(memory.keys())]: ascending in the order of Python strings. *)
Definition sorted_keys (memory : gmap string string) : list string :=
  merge_sort String.le (map_to_list memory).*1.

(** The listing [known]: one line per key, in sorted order. *)
Definition known (memory : gmap string string) : result string :=
  lines ← mapM (fun key => uri ← getitem memory key;
                           mret (key +:+ " : " +:+ uri))
               (sorted_keys memory);
  mret (PyStr.join PyStr.nl lines).

(** The exceptions that the [except] clause of [do_GET] names. *)
Definition caught (e : exn) : bool :=
  match e with
  | KeyError _ | CookieError => true
  | IndexError => false
  end.

(** [do_GET].  The [print(e)] of the [except] clause writes to the standard
    output of the server and is not part of the response. *)
Definition do_GET (req : request) : Py response :=
  let name := UrlParse.unquote (PyStr.tail (path req)) in
  let message := "I don't know you yet!" in
  '(name, message) ← eval
    match cookie req with
    | Some h =>
        match c ← SimpleCookie h; getitem c "yourname" with
        | Ok v => Ok (v, "Hey there, " +:+ Html.escape v)
        | Raise e =>
            if caught e then Ok (name, "I'm not sure who you are!")
            else Raise e
        end
    | None => Ok (name, message)
    end;
  memory ← read_memory;
  if PyStr.truthy name then
    if contains memory name then
      uri ← eval (getitem memory name);
      mret {| status := 303;
              headers := [("Location", uri)];
              content := EmptyString |}
    else
      mret {| status := 404;
              headers := [("Content-type", "text/plain; charset=utf-8")];
              content := "I don't know '" +:+ name +:+ "'." |}
  else
    known ← eval (known memory);
    let finalOutput := known +:+ PyStr.nl +:+ message in
    mret {| status := 200;
            headers := [("Content-type", "text/html")];
            content := form finalOutput |}.

Definition do_POST (control_check : bool) (net : network) (req : request)
    : Py response :=
  let params := UrlParse.parse_qs (body req) in
  yourname ← eval (getitem (UrlParse.parse_qs (body req)) "yourname" ≫= getitem0);
  iAmCookie ← eval (Cookies.setitem control_check "yourname" yourname);
  let iAmCookie := Cookies.set_max_age 600 iAmCookie in
  let iAmCookie := Cookies.set_domain "localhost" iAmCookie in
  if negb (contains params "longuri") || negb (contains params "shortname") then
    mret {| status := 400;
            headers := [("Content-type", "text/html charset=utf-8")];
            content := "Missing form fields!" |}
  else
    longuri ← eval (getitem params "longuri" ≫= getitem0);
    shortname ← eval (getitem params "shortname" ≫= getitem0);
    if truth (CheckURI net longuri default_timeout) then
      _ ← memory_setitem shortname longuri;
      mret {| status := 303;
              headers := [("Location", "/");
                          ("Set-Cookie", Cookies.OutputString iAmCookie)];
              content := EmptyString |}
    else
      mret {| status := 404;
              headers := [("Content-type", "text/html charset=utf-8")];
              content := "This is unfair!" |}.

(** The dispatch of [BaseHTTPRequestHandler] on the request method. *)
Definition handle (control_check : bool) (net : network) (req : request)
    : Py response :=
  match command req with
  | GET => do_GET req
  | POST => do_POST control_check net req
  end.

(** The server over a sequence of requests, each with the network of its
    time: the dictionary after the last one. *)
Fixpoint serve (control_check : bool) (memory : gmap string string)
    (events : list (network * request)) : gmap string string :=
  match events with
  | [] => memory
  | (net, req) :: events' =>
      serve control_check (handle control_check net req memory).2 events'
  end.

(** * Vocabulary of the statements *)

(** The form of a POST request, parsed. *)
Definition params (req : request) : gmap string (list string) :=
  UrlParse.parse_qs (body req).

(** The value of the yourname cookie, when the request has a Cookie header
    that loads and holds one. *)
Definition yourname_of (req : request) : option string :=
  match cookie req with
  | Some (Morsels jar) => jar !! "yourname"
  | Some Malformed | None => None
  end.

(** The name [do_GET] ends up looking for: the variable [name] first holds
    the decoded path and is then assigned the cookie value. *)
Definition name_looked_up (req : request) : string :=
  match yourname_of req with
  | Some v => v
  | None => UrlParse.unquote (PyStr.tail (path req))
  end.

(** The greeting of the form page. *)
Definition greeting (req : request) : string :=
  match cookie req with
  | None => "I don't know you yet!"
  | Some _ =>
      match yourname_of req with
      | Some v => "Hey there, " +:+ Html.escape v
      | None => "I'm not sure who you are!"
      end
  end.

(** The line of the listing for [key]. *)
Definition listing_line (memory : gmap string string) (key : string) : string :=
  key +:+ " : " +:+ default EmptyString (memory !! key).

Definition redirect_to (uri : string) : response :=
  {| status := 303; headers := [("Location", uri)]; content := EmptyString |}.

Definition unknown_name (name : string) : response :=
  {| status := 404;
     headers := [("Content-type", "text/plain; charset=utf-8")];
     content := "I don't know '" +:+ name +:+ "'." |}.

Definition form_page (memory : gmap string string) (message : string) : response :=
  {| status := 200;
     headers := [("Content-type", "text/html")];
     content :=
       form (PyStr.join PyStr.nl (listing_line memory <$> sorted_keys memory)
                    +:+ PyStr.nl +:+ message) |}.

Definition missing_fields : response :=
  {| status := 400;
     headers := [("Content-type", "text/html charset=utf-8")];
     content := "Missing form fields!" |}.


(** The cookie of a registration: the name as submitted, for 600 seconds,
    for the domain the server is written for. *)
Definition yourname_cookie (yourname : string) : Cookies.Morsel :=
  {| Cookies.key := "yourname";
     Cookies.value := yourname;
     Cookies.coded_value := Cookies._quote yourname;
     Cookies.max_age := Some 600;
     Cookies.domain := "localhost" |}.

Definition registered (yourname : string) : response :=
  {| status := 303;
     headers := [("Location", "/");
                 ("Set-Cookie", Cookies.OutputString (yourname_cookie yourname))];
     content := EmptyString |}.

(** Whether the cookie library takes the value of yourname. *)
Definition cookie_accepts (control_check : bool) (yourname : string) : bool :=
  negb (control_check
        && (Cookies._has_control_character yourname
            || Cookies._has_control_character (Cookies._quote yourname))).

(** A dictionary of the parser: every list has a first value, and no value
    is empty. *)
Definition values_ok (d : gmap string (list string)) : Prop :=
  ∀ k vs, d !! k = Some vs -> vs ≠ [] ∧ Forall (fun v => v ≠ EmptyString) vs.

(** The event [ev] is a registration of [longuri] under [shortname] that the
    liveness check let through: the GET of [longuri] answered 200. *)
Definition admits (ev : network * request) (shortname longuri : string) : Prop :=
  command ev.2 = POST
  ∧ (∃ more, params ev.2 !! "shortname" = Some (shortname :: more))
  ∧ (∃ more, params ev.2 !! "longuri" = Some (longuri :: more))
  ∧ CheckURI ev.1 longuri default_timeout = PyTrue.

(** A GET request for [path], with the Cookie header as loaded. *)
Definition get_request (path : string) (cookie : option cookie_header)
    : request :=
  {| command := GET; path := path; cookie := cookie; body := EmptyString |}.

(** A POST request with the form [body]. *)
Definition post_request (body : string) : request :=
  {| command := POST; path := "/"; cookie := None; body := body |}.

(** The header [Cookie: yourname=Ann], loaded. *)
Definition cookie_Ann : option cookie_header :=
  Some (Morsels {["yourname" := "Ann"]}).

(** A network on which every GET answers with [code]. *)
Definition answers (code : Z) : network := fun _ _ => Response code.

(** A network on which every GET fails. *)
Definition unreachable : network := fun _ _ => RequestException.




(** Whether an event is a POST request. *)
Definition is_POST (ev : network * request) : bool :=
  match command ev.2 with
  | POST => true
  | GET => false
  end.


(** * Properties *)

#[global] Arguments Cookies.setitem : simpl never.
#[global] Arguments UrlParse.parse_qs : simpl never.
#[global] Arguments CheckURI : simpl never.

(** Unfolding of the monad operations in a goal. *)
Ltac run_py :=
  unfold mbind, mret, Py_bind, Py_ret, result_bind, result_ret,
    eval, read_memory, memory_setitem; cbn.

(** ** The listing *)

Section Listing.

Context (memory : gmap string string).

Lemma sorted_keys_Permutation : sorted_keys memory ≡ₚ (map_to_list memory).*1.
Proof. apply merge_sort_Permutation. Qed.

Lemma sorted_keys_elem (k : string) :
  k ∈ sorted_keys memory ↔ is_Some (memory !! k).
Proof.
  rewrite sorted_keys_Permutation, list_elem_of_fmap. split.
  - intros [[k' v] [-> Hin]]. exists v. by apply elem_of_map_to_list.
  - intros [v Hv]. exists (k, v). split; [done|]. by apply elem_of_map_to_list.
Qed.

Lemma sorted_keys_NoDup : NoDup (sorted_keys memory).
Proof. rewrite sorted_keys_Permutation. apply NoDup_fst_map_to_list. Qed.

Lemma sorted_keys_sorted : StronglySorted String.le (sorted_keys memory).
Proof. apply (StronglySorted_merge_sort _). Qed.

End Listing.

Lemma mapM_result_Ok {A B : Type} (f : A -> result B) (g : A -> B) (l : list A) :
  Forall (fun x => f x = Ok (g x)) l -> mapM f l = Ok (g <$> l).
Proof.
  induction 1 as [|x l Hx _ IH]; [done|].
  cbn. rewrite Hx. cbn. fold (mapM f l). by rewrite IH.
Qed.

(** The comprehension never fails: each key it looks up comes from the
    dictionary itself. *)
Lemma known_listing (memory : gmap string string) :
  known memory = Ok (PyStr.join PyStr.nl (listing_line memory <$> sorted_keys memory)).
Proof.
  unfold known.
  rewrite (mapM_result_Ok _ (listing_line memory)); [done|].
  apply Forall_forall. intros k [v Hv]%sorted_keys_elem.
  unfold getitem, listing_line. by rewrite Hv.
Qed.

(** ** GET *)

Lemma truthy_iff (s : string) : PyStr.truthy s = true ↔ s ≠ EmptyString.
Proof. by destruct s. Qed.

Lemma contains_lookup {V : Type} (d : gmap string V) (k : string) :
  contains d k = bool_decide (is_Some (d !! k)).
Proof.
  unfold contains. destruct (d !! k) eqn:E.
  - symmetry. apply bool_decide_eq_true. eauto.
  - symmetry. apply bool_decide_eq_false. by intros [? ?].
Qed.

(** [do_GET] in one equation: which of the three responses is sent depends
    on [name_looked_up] alone, and [memory] is left as it was. *)
Lemma do_GET_eq (req : request) (memory : gmap string string) :
  do_GET req memory =
    (Ok (if PyStr.truthy (name_looked_up req) then
           match memory !! name_looked_up req with
           | Some uri => redirect_to uri
           | None => unknown_name (name_looked_up req)
           end
         else form_page memory (greeting req)),
     memory).
Proof.
  unfold do_GET, name_looked_up, greeting, yourname_of.
  run_py. unfold contains, getitem.
  destruct (cookie req) as [[jar|]|]; cbn;
    [destruct (jar !! "yourname") as [v|]; cbn | |];
    (destruct (PyStr.truthy _); cbn;
       [by destruct (memory !! _) | by rewrite known_listing]).
Qed.

Lemma do_GET_memory (req : request) (memory : gmap string string) :
  (do_GET req memory).2 = memory.
Proof. by rewrite do_GET_eq. Qed.

(** Without a usable yourname cookie the decoded path is what is looked up:
    a stored name redirects to its URI. *)
Lemma do_GET_redirect (req : request) (memory : gmap string string)
    (name uri : string) :
  yourname_of req = None ->
  UrlParse.unquote (PyStr.tail (path req)) = name ->
  name ≠ EmptyString ->
  memory !! name = Some uri ->
  do_GET req memory = (Ok (redirect_to uri), memory).
Proof.
  intros Hc Hp Hn Hm. rewrite do_GET_eq. unfold name_looked_up.
  rewrite Hc, Hp, Hm. apply truthy_iff in Hn. by rewrite Hn.
Qed.


Lemma do_GET_form (req : request) (memory : gmap string string) :
  yourname_of req = None ->
  PyStr.tail (path req) = EmptyString ->
  do_GET req memory = (Ok (form_page memory (greeting req)), memory).
Proof.
  intros Hc Hp. rewrite do_GET_eq. unfold name_looked_up.
  by rewrite Hc, Hp.
Qed.

(** ** The liveness check *)

Lemma CheckURI_true (net : network) (uri : string) (timeout : Z) :
  CheckURI net uri timeout = PyTrue ↔ net uri timeout = Response 200.
Proof.
  unfold CheckURI. destruct (net uri timeout) as [code|]; [|done].
  destruct (Z.eqb_spec code 200) as [->|Hne]; [done|].
  split; [done|]. intros [= ?]. done.
Qed.

(** The three ways [CheckURI] ends. *)
Lemma CheckURI_cases (net : network) (uri : string) (timeout : Z) :
  (net uri timeout = Response 200 ∧ CheckURI net uri timeout = PyTrue)
  ∨ (∃ code, code ≠ 200 ∧ net uri timeout = Response code
             ∧ CheckURI net uri timeout = PyNone)
  ∨ (net uri timeout = RequestException ∧ CheckURI net uri timeout = PyFalse).
Proof.
  unfold CheckURI. destruct (net uri timeout) as [code|]; [|by right; right].
  destruct (Z.eqb_spec code 200) as [->|Hne]; [by left|].
  right; left. by exists code.
Qed.

Lemma truth_CheckURI (net : network) (uri : string) (timeout : Z) :
  truth (CheckURI net uri timeout) = true ↔ net uri timeout = Response 200.
Proof.
  rewrite <- CheckURI_true. by destruct (CheckURI net uri timeout).
Qed.

(** ** POST *)

Lemma setitem_yourname (control_check : bool) (yourname : string) :
  Cookies.setitem control_check "yourname" yourname =
    if cookie_accepts control_check yourname
    then Ok {| Cookies.key := "yourname";
               Cookies.value := yourname;
               Cookies.coded_value := Cookies._quote yourname;
               Cookies.max_age := None;
               Cookies.domain := EmptyString |}
    else Raise CookieError.
Proof.
  unfold Cookies.setitem, cookie_accepts.
  change (Cookies._is_legal_key "yourname") with true.
  change (Cookies._has_control_character "yourname") with false.
  cbn [negb orb]. by destruct (_ && _).
Qed.

Section Post.

Context (control_check : bool) (net : network) (req : request)
  (memory : gmap string string).

(** The first statement after the parsing subscripts the form with yourname:
    without that field the handler ends there, with KeyError. *)
Lemma do_POST_KeyError :
  params req !! "yourname" = None ->
  do_POST control_check net req memory = (Raise (KeyError "yourname"), memory).
Proof.
  intros Hy. unfold do_POST. run_py. unfold getitem at 1. fold (params req).
  by rewrite Hy.
Qed.


Lemma do_POST_missing (yourname : string) (more : list string) :
  params req !! "yourname" = Some (yourname :: more) ->
  cookie_accepts control_check yourname = true ->
  params req !! "longuri" = None ∨ params req !! "shortname" = None ->
  do_POST control_check net req memory = (Ok missing_fields, memory).
Proof.
  intros Hy Hc Hm. unfold do_POST. run_py. unfold getitem at 1. fold (params req).
  rewrite Hy. cbn. rewrite setitem_yourname, Hc.
  unfold contains.
  destruct Hm as [-> | ->]; [done|]. by destruct (params req !! "longuri").
Qed.

Lemma do_POST_registered (yourname longuri shortname : string)
    (more more_l more_s : list string) :
  params req !! "yourname" = Some (yourname :: more) ->
  cookie_accepts control_check yourname = true ->
  params req !! "longuri" = Some (longuri :: more_l) ->
  params req !! "shortname" = Some (shortname :: more_s) ->
  truth (CheckURI net longuri default_timeout) = true ->
  do_POST control_check net req memory =
    (Ok (registered yourname), <[shortname := longuri]> memory).
Proof.
  intros Hy Hc Hl Hs Hu. unfold do_POST. run_py. unfold getitem at 1. fold (params req).
  rewrite Hy. cbn. rewrite setitem_yourname, Hc.
  unfold contains, getitem. rewrite Hl, Hs. cbn. by rewrite Hu.
Qed.


(** The only statement of [do_POST] that writes [memory] stands under the
    test of [CheckURI]: the handler leaves [memory] as it was, or it has
    stored the first long URI under the first short name after a GET of that
    URI answered 200. *)
Lemma do_POST_memory :
  (do_POST control_check net req memory).2 = memory
  ∨ ∃ shortname longuri more_s more_l,
      params req !! "shortname" = Some (shortname :: more_s)
      ∧ params req !! "longuri" = Some (longuri :: more_l)
      ∧ net longuri default_timeout = Response 200
      ∧ (do_POST control_check net req memory).2 = <[shortname := longuri]> memory.
Proof.
  unfold do_POST. run_py. unfold contains, getitem. fold (params req).
  destruct (params req !! "yourname") as [[|y more]|]; cbn; [by left| |by left].
  rewrite setitem_yourname.
  destruct (cookie_accepts control_check y); cbn; [|by left].
  destruct (params req !! "longuri") as [[|l more_l]|] eqn:Hl;
    destruct (params req !! "shortname") as [[|s more_s]|] eqn:Hs;
    cbn; try (by left).
  destruct (truth _) eqn:Hu; cbn; [|by left].
  right. exists s, l, more_s, more_l. by apply truth_CheckURI in Hu.
Qed.

End Post.

(** ** The form parser *)

Lemma app_empty (s : string) : EmptyString +:+ s = s.
Proof. done. Qed.

Lemma app_String (c : ascii) (t s : string) :
  String c t +:+ s = String c (t +:+ s).
Proof. done. Qed.

Lemma mem_app (c : ascii) (a b : string) :
  PyStr.mem c (a +:+ b) = PyStr.mem c a || PyStr.mem c b.
Proof.
  induction a as [|d t IH]; [done|].
  rewrite app_String. cbn -[Ascii.eqb]. by rewrite IH, orb_assoc.
Qed.

Section Split.

Context (sep : ascii).

Lemma split_no_sep (s : string) :
  PyStr.mem sep s = false -> PyStr.split sep s = [s].
Proof.
  induction s as [|c t IH]; [done|]. cbn.
  rewrite Ascii.eqb_sym. destruct (Ascii.eqb c sep); [done|].
  cbn. intros Ht. by rewrite (IH Ht).
Qed.

Lemma split_app (a b : string) :
  PyStr.mem sep a = false ->
  PyStr.split sep (a +:+ String sep b) = a :: PyStr.split sep b.
Proof.
  induction a as [|c t IH]; rewrite ?app_empty, ?app_String; cbn.
  - by rewrite Ascii.eqb_refl.
  - rewrite Ascii.eqb_sym. destruct (Ascii.eqb c sep); [done|].
    cbn. intros Ht. by rewrite (IH Ht).
Qed.

(** Splitting what [join] built gives the fields back, when no field holds
    the separator. *)
Lemma split_join (fields : list string) :
  fields ≠ [] ->
  Forall (fun f => PyStr.mem sep f = false) fields ->
  PyStr.split sep (PyStr.join (String sep EmptyString) fields) = fields.
Proof.
  intros Hne Hall. induction Hall as [|f fs Hf Hfs IH]; [done|].
  destruct fs as [|g fs]; [by apply split_no_sep|].
  change (PyStr.join (String sep EmptyString) (f :: g :: fs))
    with (f +:+ String sep (PyStr.join (String sep EmptyString) (g :: fs))).
  rewrite split_app by done. f_equal. by apply IH.
Qed.

Lemma join_empty (fields : list string) :
  PyStr.join (String sep EmptyString) fields = EmptyString ->
  fields = [] ∨ fields = [EmptyString].
Proof.
  destruct fields as [|f [|g fs]]; cbn; [by left|intros ->; by right|].
  by destruct f.
Qed.

End Split.

Lemma parse_field_empty : UrlParse.parse_field EmptyString = None.
Proof. done. Qed.

Lemma split1_no_sep (sep : ascii) (k rest : string) :
  PyStr.mem sep k = false ->
  PyStr.split1 sep (k +:+ String sep rest) = (k, Some rest).
Proof.
  induction k as [|c t IH]; rewrite ?app_empty, ?app_String; cbn.
  - by rewrite Ascii.eqb_refl.
  - rewrite Ascii.eqb_sym. destruct (Ascii.eqb c sep); [done|].
    cbn. intros Ht. by rewrite (IH Ht).
Qed.

(** A field with nothing after its equals sign is skipped. *)
Lemma parse_field_blank (k : string) :
  PyStr.mem "=" k = false -> UrlParse.parse_field (k +:+ "=") = None.
Proof.
  intros Hk. unfold UrlParse.parse_field.
  rewrite (split1_no_sep "=" k EmptyString Hk). by destruct (k +:+ "=").
Qed.

(** [parse_qsl] of a body written field by field. *)
Lemma parse_qsl_join (fields : list string) :
  Forall (fun f => PyStr.mem "&" f = false) fields ->
  UrlParse.parse_qsl (PyStr.join "&" fields) = omap UrlParse.parse_field fields.
Proof.
  intros Hall. unfold UrlParse.parse_qsl.
  destruct (PyStr.truthy (PyStr.join "&" fields)) eqn:Ht.
  - rewrite (split_join "&"); [done| |done]. by intros ->.
  - assert (PyStr.join "&" fields = EmptyString) as He
      by (by destruct (PyStr.join "&" fields)).
    by destruct (join_empty "&" fields He) as [-> | ->].
Qed.

(** The parser does not tell a body with a blank field from the body
    without that field. *)
Lemma parse_qs_blank (before after : list string) (k : string) :
  PyStr.mem "=" k = false ->
  PyStr.mem "&" k = false ->
  Forall (fun f => PyStr.mem "&" f = false) (before ++ after) ->
  UrlParse.parse_qs (PyStr.join "&" (before ++ (k +:+ "=") :: after))
  = UrlParse.parse_qs (PyStr.join "&" (before ++ after)).
Proof.
  intros Heq Hamp Hall. unfold UrlParse.parse_qs.
  apply Forall_app in Hall as [Hb Ha].
  rewrite !parse_qsl_join.
  - rewrite !omap_app. cbn. by rewrite (parse_field_blank k Heq).
  - by apply Forall_app.
  - apply Forall_app. split; [done|]. constructor; [|done].
    by rewrite mem_app, Hamp.
Qed.

Lemma unquote_nonempty (s : string) :
  s ≠ EmptyString -> UrlParse.unquote s ≠ EmptyString.
Proof.
  destruct s as [|c t]; [done|]. intros _.
  cbn -[Ascii.eqb UrlParse.hexval].
  destruct (Ascii.eqb c "%"); [|done].
  destruct t as [|h [|l t']]; [done..|].
  by destruct (UrlParse.hexval h), (UrlParse.hexval l).
Qed.

Lemma replace_nonempty (a b : ascii) (s : string) :
  s ≠ EmptyString -> PyStr.replace a b s ≠ EmptyString.
Proof. by destruct s. Qed.

(** A pair that [parse_qsl] yields has a value that is not empty. *)
Lemma parse_field_value (f n v : string) :
  UrlParse.parse_field f = Some (n, v) -> v ≠ EmptyString.
Proof.
  unfold UrlParse.parse_field. destruct (negb _); [done|].
  destruct (PyStr.split1 "=" f) as [n' [v'|]]; [|done].
  destruct (PyStr.truthy v') eqn:Hv; [|done].
  intros [= _ <-]. apply unquote_nonempty, replace_nonempty.
  by apply truthy_iff.
Qed.

Lemma parse_qsl_values (qs : string) :
  Forall (fun nv => nv.2 ≠ EmptyString) (UrlParse.parse_qsl qs).
Proof.
  unfold UrlParse.parse_qsl. apply Forall_forall. intros [n v].
  rewrite list_elem_of_omap. intros (f & _ & Hf). by eapply parse_field_value.
Qed.

Lemma add_pair_values (d : gmap string (list string)) (nv : string * string) :
  values_ok d -> nv.2 ≠ EmptyString -> values_ok (UrlParse.add_pair d nv).
Proof.
  intros Hd Hv k vs. unfold UrlParse.add_pair.
  destruct (d !! nv.1) as [ws|] eqn:Hw.
  - destruct (decide (nv.1 = k)) as [<-|Hne].
    + rewrite lookup_insert_eq. intros [= <-].
      destruct (Hd _ _ Hw) as [Hne Hall]. split.
      * by destruct ws.
      * apply Forall_app. split; [done|]. by constructor.
    + rewrite lookup_insert_ne by done. apply Hd.
  - destruct (decide (nv.1 = k)) as [<-|Hne].
    + rewrite lookup_insert_eq. intros [= <-]. split; [done|]. by constructor.
    + rewrite lookup_insert_ne by done. apply Hd.
Qed.

Lemma parse_qs_values (qs : string) : values_ok (UrlParse.parse_qs qs).
Proof.
  unfold UrlParse.parse_qs.
  assert (values_ok (∅ : gmap string (list string))) as H0
    by (intros k vs; by rewrite lookup_empty).
  revert H0. generalize (∅ : gmap string (list string)).
  induction (parse_qsl_values qs) as [|nv l Hnv _ IH]; intros d Hd; [done|].
  cbn. apply IH. by apply add_pair_values.
Qed.

(** ** Admission to the registry *)

(** One request: the dictionary stays, or one admitted pair is stored. *)
Lemma handle_memory (control_check : bool) (net : network) (req : request)
    (memory : gmap string string) :
  (handle control_check net req memory).2 = memory
  ∨ ∃ shortname longuri,
      admits (net, req) shortname longuri
      ∧ (handle control_check net req memory).2 = <[shortname := longuri]> memory.
Proof.
  unfold handle. destruct (command req) eqn:Hc.
  - left. apply do_GET_memory.
  - destruct (do_POST_memory control_check net req memory)
      as [Hm | (s & l & ms & ml & Hs & Hl & Hn & Hm)]; [by left|].
    right. exists s, l. split; [|done].
    repeat split; cbn; eauto. by apply CheckURI_true.
Qed.

(** Any sequence of requests: an entry of the dictionary was there at the
    start, or some request of the sequence was its admitted registration. *)
Lemma serve_entries (control_check : bool) (events : list (network * request)) :
  ∀ (memory : gmap string string) (shortname longuri : string),
    serve control_check memory events !! shortname = Some longuri ->
    memory !! shortname = Some longuri
    ∨ Exists (fun ev => admits ev shortname longuri) events.
Proof.
  induction events as [|[net req] events IH]; intros memory k v; cbn; [by left|].
  intros [Hk | Hk]%IH; [|right; by apply Exists_cons_tl].
  destruct (handle_memory control_check net req memory)
    as [Hm | (s & l & Hadm & Hm)]; rewrite Hm in Hk; [by left|].
  destruct (decide (s = k)) as [->|Hne].
  - rewrite lookup_insert_eq in Hk. injection Hk as ->.
    right. by apply Exists_cons_hd.
  - rewrite lookup_insert_ne in Hk by done. by left.
Qed.

(** No request stores an empty short name or an empty long URI: the values
    that the parser keeps are not empty. *)
Lemma do_POST_never_empty (control_check : bool) (net : network)
    (req : request) (memory : gmap string string) :
  (do_POST control_check net req memory).2 !! EmptyString = memory !! EmptyString
  ∧ ∀ name, (do_POST control_check net req memory).2 !! name = Some EmptyString ->
            memory !! name = Some EmptyString.
Proof.
  destruct (do_POST_memory control_check net req memory)
    as [-> | (s & l & ms & ml & Hs & Hl & _ & ->)]; [done|].
  destruct (parse_qs_values _ _ _ Hs) as [_ Hs'].
  destruct (parse_qs_values _ _ _ Hl) as [_ Hl'].
  apply Forall_cons in Hs' as [Hs' _]. apply Forall_cons in Hl' as [Hl' _].
  split.
  - by rewrite lookup_insert_ne.
  - intros name. destruct (decide (s = name)) as [->|Hne].
    + rewrite lookup_insert_eq. by intros [= ->].
    + by rewrite lookup_insert_ne.
Qed.

(** ** The examples of the specification *)

(** A registration with all three fields, of a URI that answers 200: the
    pair is stored and the answer is the redirect to the root with the
    cookie; a GET of the short name without Cookie header then redirects to
    the long URI. *)
Example register_then_lookup :
  let req := post_request "yourname=Ann&longuri=https://example.com&shortname=ex" in
  let memory : gmap string string := {["ex" := "https://example.com"]} in
  do_POST false (answers 200) req ∅
  = (Ok {| status := 303;
           headers := [("Location", "/");
                       ("Set-Cookie", "yourname=Ann; Domain=localhost; Max-Age=600")];
           content := EmptyString |},
     memory)
  ∧ do_GET (get_request "/ex" None) memory
    = (Ok (redirect_to "https://example.com"), memory).
Proof.
  intros req memory. split.
  - by rewrite (do_POST_registered false (answers 200) req ∅
                  "Ann" "https://example.com" "ex" [] [] []).
  - by eapply do_GET_redirect.
Qed.

(** The later of two registrations of one short name is the one kept. *)
Example register_twice :
  serve false ∅
    [(answers 200, post_request "yourname=Ann&longuri=https://a.example&shortname=ex");
     (answers 200, post_request "yourname=Ann&longuri=https://b.example&shortname=ex")]
  = {["ex" := "https://b.example"]}.
Proof.
  cbn [serve handle command post_request].
  rewrite (do_POST_registered false (answers 200) _ ∅
             "Ann" "https://a.example" "ex" [] [] []) by done.
  cbn [snd].
  rewrite (do_POST_registered false (answers 200) _ _
             "Ann" "https://b.example" "ex" [] [] []) by done.
  apply insert_insert_eq.
Qed.

(** A registration without short name, the name of the visitor given. *)
Example shortname_omitted (net : network) (memory : gmap string string) :
  do_POST false net (post_request "yourname=Ann&longuri=https://example.com") memory
  = (Ok missing_fields, memory).
Proof. eapply do_POST_missing; [done..|]. by right. Qed.

(** A GET of a name that is not stored. *)
Example unknown_on_empty_registry :
  do_GET (get_request "/unknown-name" None) ∅
  = (Ok {| status := 404;
           headers := [("Content-type", "text/plain; charset=utf-8")];
           content := "I don't know 'unknown-name'." |},
     ∅).
Proof. by rewrite do_GET_eq. Qed.

(** The root path without Cookie header. *)
Example root_without_cookie (memory : gmap string string) :
  do_GET (get_request "/" None) memory
  = (Ok (form_page memory "I don't know you yet!"), memory).
Proof. by apply do_GET_form. Qed.

(** The listing of two entries stored in the other order. *)
Example listing_of_two :
  known (<["a" := "https://a.example"]> {["b" := "https://b.example"]})
  = Ok ("a : https://a.example" +:+ PyStr.nl +:+ "b : https://b.example").
Proof. by rewrite known_listing. Qed.

(** The registration of the first example is an admitted one. *)
Example admitted_registration :
  admits (answers 200,
          post_request "yourname=Ann&longuri=https://example.com&shortname=ex")
    "ex" "https://example.com".
Proof. split_and!; [done|by exists []..|done]. Qed.

(** * The claims *)

(** C1. A GET of the path of a stored short name is to answer 303 with the
    stored URI in Location, whatever Cookie header comes with it.  The code
    assigns the value of the yourname cookie to the variable it looks up:
    with ex stored and the header Cookie: yourname=Ann, the GET of /ex is
    answered 404 for the name Ann. *)
Theorem lookup_uses_cookie_value :
  let memory : gmap string string := {["ex" := "https://example.com"]} in
  memory !! "ex" = Some "https://example.com"
  ∧ do_GET (get_request "/ex" cookie_Ann) memory
    = (Ok {| status := 404;
             headers := [("Content-type", "text/plain; charset=utf-8")];
             content := "I don't know 'Ann'." |},
       memory).
Proof. intros memory. split; [done|]. by rewrite do_GET_eq. Qed.

(** C2. A GET of the root path is to answer 200 with the form page, the
    Cookie header changing the greeting only.  With the header
    Cookie: yourname=Ann the code looks the name Ann up instead: the answer
    is the redirect stored under Ann, or 404, and never the form. *)
Theorem root_with_cookie_is_lookup (memory : gmap string string) :
  do_GET (get_request "/" cookie_Ann) memory
  = (Ok match memory !! "Ann" with
        | Some uri => redirect_to uri
        | None => unknown_name "Ann"
        end,
     memory).
Proof. by rewrite do_GET_eq. Qed.

(** C3. A POST whose form lacks longuri or shortname is to be answered 400,
    whether yourname is there or not.  The code subscripts the form with
    yourname before it tests the two fields: for the body
    longuri=https://example.com it ends with KeyError and sends nothing. *)
Theorem missing_fields_without_yourname (control_check : bool) (net : network)
    (memory : gmap string string) :
  do_POST control_check net (post_request "longuri=https://example.com") memory
  = (Raise (KeyError "yourname"), memory).
Proof. by apply do_POST_KeyError. Qed.

(** C4. Every request is to end in one response, and do_POST is never to
    raise, whatever the form body.  On the empty body the code raises
    KeyError at its subscript of the form with yourname, and sends nothing. *)
Theorem do_POST_raises_on_empty_body (control_check : bool) (net : network)
    (memory : gmap string string) :
  do_POST control_check net (post_request EmptyString) memory
  = (Raise (KeyError "yourname"), memory).
Proof. by apply do_POST_KeyError. Qed.

(** C5. CheckURI is to return exactly False after any status other than
    200.  The code has no return on that path: after a 404 it returns None. *)
Theorem CheckURI_other_status (uri : string) (timeout : Z) :
  CheckURI (answers 404) uri timeout = PyNone.
Proof. done. Qed.

(** C6. A POST with longuri and shortname whose liveness check fails is to
    be answered 404.  When the name field of the form is left blank the
    parser drops it, and the code ends with KeyError before it checks the
    URI: nothing is sent. *)
Theorem failed_check_without_yourname (control_check : bool)
    (memory : gmap string string) :
  let req := post_request "yourname=&longuri=https://down.example&shortname=ex" in
  params req !! "longuri" = Some ["https://down.example"]
  ∧ params req !! "shortname" = Some ["ex"]
  ∧ truth (CheckURI unreachable "https://down.example" default_timeout) = false
  ∧ do_POST control_check unreachable req memory
    = (Raise (KeyError "yourname"), memory).
Proof.
  intros req. split_and!; [done..|]. by apply do_POST_KeyError.
Qed.

(** C7. A POST with longuri and shortname whose liveness check succeeds is
    to store the pair and to be answered 303 with the cookie.  When the name
    field of the form is left blank the parser drops it, and the code ends
    with KeyError before it checks the URI: nothing is stored and nothing is
    sent. *)
Theorem good_check_without_yourname (control_check : bool)
    (memory : gmap string string) :
  let req := post_request "yourname=&longuri=https://example.com&shortname=ex" in
  params req !! "longuri" = Some ["https://example.com"]
  ∧ params req !! "shortname" = Some ["ex"]
  ∧ CheckURI (answers 200) "https://example.com" default_timeout = PyTrue
  ∧ do_POST control_check (answers 200) req memory
    = (Raise (KeyError "yourname"), memory).
Proof.
  intros req. split_and!; [done..|]. by apply do_POST_KeyError.
Qed.

(** C8. Every operation keeps the invariant of the registry: a request
    leaves the dictionary as it was or stores one pair whose long URI has
    just passed the liveness check, so that after any sequence of requests
    on the empty dictionary every entry was admitted by a check that
    succeeded; and the listing names the entries in ascending order of their
    short names, each once, one line [name : uri] per entry, which is what
    the form page shows. *)
Theorem registry_invariant (control_check : bool)
    (events : list (network * request)) (net : network) (req : request)
    (memory : gmap string string) :
  ((handle control_check net req memory).2 = memory
   ∨ ∃ shortname longuri,
       admits (net, req) shortname longuri
       ∧ (handle control_check net req memory).2 = <[shortname := longuri]> memory)
  ∧ (∀ shortname longuri,
       serve control_check ∅ events !! shortname = Some longuri ->
       Exists (fun ev => admits ev shortname longuri) events)
  ∧ StronglySorted String.le (sorted_keys memory)
  ∧ NoDup (sorted_keys memory)
  ∧ (∀ name, name ∈ sorted_keys memory ↔ is_Some (memory !! name))
  ∧ known memory
    = Ok (PyStr.join PyStr.nl
            ((fun name => name +:+ " : " +:+ default EmptyString (memory !! name))
               <$> sorted_keys memory))
  ∧ (∀ r : request,
       yourname_of r = None -> PyStr.tail (path r) = EmptyString ->
       ∃ listing,
         known memory = Ok listing
         ∧ do_GET r memory
           = (Ok {| status := 200;
                    headers := [("Content-type", "text/html")];
                    content := form (listing +:+ PyStr.nl +:+ greeting r) |},
              memory)).
Proof.
  split_and!.
  - apply handle_memory.
  - intros k v [Hk | Hk]%serve_entries; [|done]. by rewrite lookup_empty in Hk.
  - apply sorted_keys_sorted.
  - apply sorted_keys_NoDup.
  - apply sorted_keys_elem.
  - apply known_listing.
  - intros r Hc Hp. eexists. split; [apply known_listing|].
    by apply do_GET_form.
Qed.

(** C10, as the code has it.  A field with nothing after its equals sign is
    dropped by the parser, so the request is handled exactly as the request
    without that field: same response or exception, same dictionary.  When
    the form then holds a yourname that the cookie library takes, and no
    longuri or no shortname, the answer is 400 and the dictionary is as it
    was.  No request stores an empty short name or an empty long URI. *)
Theorem blank_field_dropped (control_check : bool) (net : network)
    (memory : gmap string string) (before after : list string) (k : string) :
  PyStr.mem "=" k = false ->
  PyStr.mem "&" k = false ->
  Forall (fun f => PyStr.mem "&" f = false) (before ++ after) ->
  let blank := post_request (PyStr.join "&" (before ++ (k +:+ "=") :: after)) in
  let absent := post_request (PyStr.join "&" (before ++ after)) in
  params blank = params absent
  ∧ do_POST control_check net blank memory = do_POST control_check net absent memory
  ∧ (∀ yourname more,
       params absent !! "yourname" = Some (yourname :: more) ->
       cookie_accepts control_check yourname = true ->
       params absent !! "longuri" = None ∨ params absent !! "shortname" = None ->
       do_POST control_check net blank memory = (Ok missing_fields, memory))
  ∧ (do_POST control_check net blank memory).2 !! EmptyString = memory !! EmptyString
  ∧ (∀ name, (do_POST control_check net blank memory).2 !! name = Some EmptyString ->
             memory !! name = Some EmptyString).
Proof.
  intros Heq Hamp Hall blank absent.
  assert (params blank = params absent) as Hp
    by (by apply parse_qs_blank).
  split_and!; [done| | |apply do_POST_never_empty..].
  - unfold do_POST. cbn [body blank absent post_request].
    unfold params in Hp. cbn [body blank absent post_request] in Hp.
    by rewrite Hp.
  - intros y more Hy Hc Hm. rewrite <- Hp in Hy, Hm.
    by eapply do_POST_missing.
Qed.

Lemma blank_field_dropped_witness :
  let blank := post_request "yourname=Ann&longuri=https://example.com&shortname=" in
  let absent := post_request "yourname=Ann&longuri=https://example.com" in
  (PyStr.mem "=" "shortname" = false
   ∧ PyStr.mem "&" "shortname" = false
   ∧ Forall (fun f => PyStr.mem "&" f = false)
       (["yourname=Ann"; "longuri=https://example.com"] ++ []))
  ∧ params blank = params absent
  ∧ do_POST false (answers 200) blank ∅ = do_POST false (answers 200) absent ∅
  ∧ do_POST false (answers 200) blank ∅ = (Ok missing_fields, ∅)
  ∧ (do_POST false (answers 200) blank ∅).2 !! EmptyString = None.
Proof.
  intros blank absent.
  assert (PyStr.mem "=" "shortname" = false) as Heq by reflexivity.
  assert (PyStr.mem "&" "shortname" = false) as Hamp by reflexivity.
  assert (Forall (fun f => PyStr.mem "&" f = false)
            (["yourname=Ann"; "longuri=https://example.com"] ++ [])) as Hall
    by (repeat constructor).
  destruct (blank_field_dropped false (answers 200) ∅
              ["yourname=Ann"; "longuri=https://example.com"] [] "shortname"
              Heq Hamp Hall) as (Hp & Hsame & H400 & Hname & _).
  split_and!; [done..| |].
  - apply (H400 "Ann" []); [reflexivity..|]. right. reflexivity.
  - exact Hname.
Defined.

(** C10, as stated, fails: a body can hold a blank shortname field and
    still be answered 303 and change the dictionary, since the parser keeps
    the other value of the field. *)
Lemma blank_field_not_always_400 :
  let req :=
    post_request "yourname=Ann&longuri=https://example.com&shortname=&shortname=ex" in
  "shortname=" ∈ PyStr.split "&" (body req)
  ∧ do_POST false (answers 200) req ∅
    = (Ok (registered "Ann"), {["ex" := "https://example.com"]})
  ∧ status (registered "Ann") = 303
  ∧ ({["ex" := "https://example.com"]} : gmap string string) ≠ ∅.
Proof.
  intros req. split_and!.
  - vm_compute. set_solver.
  - by eapply do_POST_registered.
  - done.
  - apply insert_non_empty.
Qed.

(** * Further properties of the handlers *)

(** ** Auxiliary facts *)









(** A legal cookie value holds no control character. *)
Lemma legal_char_printable (c : ascii) :
  PyStr.mem c Cookies._LegalChars = true ->
  ((N_of_ascii c <? 32)%N || (N_of_ascii c =? 127)%N) = false.
Proof.
  destruct c as [[] [] [] [] [] [] [] []]; vm_compute; congruence.
Qed.

Lemma legal_no_control (s : string) :
  PyStr.all (fun c => PyStr.mem c Cookies._LegalChars) s = true ->
  Cookies._has_control_character s = false.
Proof.
  unfold Cookies._has_control_character.
  induction s as [|c t IH]; [done|].
  cbn [PyStr.all PyStr.any]. intros [Hc Ht]%andb_true_iff.
  by rewrite (legal_char_printable c Hc), (IH Ht).
Qed.

Lemma legal_accepted (control_check : bool) (yourname : string) :
  Cookies._is_legal_key yourname = true ->
  Cookies._quote yourname = yourname
  ∧ cookie_accepts control_check yourname = true.
Proof.
  intros Hk. unfold cookie_accepts, Cookies._quote. rewrite Hk.
  unfold Cookies._is_legal_key in Hk. apply andb_true_iff in Hk as [_ Hall].
  rewrite (legal_no_control _ Hall). split; [done|].
  by destruct control_check.
Qed.

(** ** GET *)




(** X3. A GET of the root path without a usable yourname cookie is answered
    200 with the form page: the template around the listing and, on the
    line after it, the greeting for a visitor without Cookie header, or the
    one for a Cookie header that cannot be used. *)
Theorem form_page_at_root (req : request) (memory : gmap string string) :
  yourname_of req = None ->
  PyStr.tail (path req) = EmptyString ->
  ∃ listing,
    known memory = Ok listing
    ∧ do_GET req memory
      = (Ok {| status := 200;
               headers := [("Content-type", "text/html")];
               content :=
                 form (listing +:+ PyStr.nl
                       +:+ match cookie req with
                           | None => "I don't know you yet!"
                           | Some _ => "I'm not sure who you are!"
                           end) |},
         memory).
Proof.
  intros Hc Hp. eexists. split; [apply known_listing|].
  rewrite (do_GET_form req memory Hc Hp). unfold form_page, greeting.
  by rewrite Hc.
Qed.

Lemma form_page_at_root_witness :
  ∃ listing,
    known ∅ = Ok listing
    ∧ do_GET (get_request "/" (Some (Morsels {["theme" := "dark"]}))) ∅
      = (Ok {| status := 200;
               headers := [("Content-type", "text/html")];
               content := form (listing +:+ PyStr.nl +:+ "I'm not sure who you are!") |},
         ∅).
Proof.
  exact (form_page_at_root
           (get_request "/" (Some (Morsels {["theme" := "dark"]}))) ∅
           eq_refl eq_refl).
Defined.


(** ** POST *)

(** X5. A POST whose form holds a yourname that the cookie library takes
    and no longuri, or no shortname, is answered 400 with the text of the
    missing fields and no Set-Cookie header; [memory] is left as it was and
    the network is not asked. *)
Theorem missing_fields_answer (control_check : bool) (net : network)
    (req : request) (memory : gmap string string)
    (yourname : string) (more : list string) :
  params req !! "yourname" = Some (yourname :: more) ->
  cookie_accepts control_check yourname = true ->
  params req !! "longuri" = None ∨ params req !! "shortname" = None ->
  do_POST control_check net req memory
  = (Ok {| status := 400;
           headers := [("Content-type", "text/html charset=utf-8")];
           content := "Missing form fields!" |},
     memory).
Proof. intros Hy Hc Hm. by rewrite (do_POST_missing _ _ _ _ _ _ Hy Hc Hm). Qed.

Lemma missing_fields_answer_witness :
  do_POST true unreachable (post_request "yourname=Ann&shortname=ex") ∅
  = (Ok {| status := 400;
           headers := [("Content-type", "text/html charset=utf-8")];
           content := "Missing form fields!" |},
     ∅).
Proof.
  exact (missing_fields_answer true unreachable
           (post_request "yourname=Ann&shortname=ex") ∅ "Ann" []
           eq_refl eq_refl (or_introl eq_refl)).
Defined.



(** X7. [do_POST] touches at most the entry of the first shortname of its
    form: every other name is bound after the request as it was before. *)
Theorem do_POST_other_names (control_check : bool) (net : network)
    (req : request) (memory : gmap string string) (name : string) :
  (∀ more, params req !! "shortname" ≠ Some (name :: more)) ->
  (do_POST control_check net req memory).2 !! name = memory !! name.
Proof.
  intros Hn.
  destruct (do_POST_memory control_check net req memory)
    as [-> | (s & l & ms & ml & Hs & _ & _ & ->)]; [done|].
  apply lookup_insert_ne. intros ->. by apply (Hn ms).
Qed.

Lemma do_POST_other_names_witness :
  (do_POST false (answers 200)
     (post_request "yourname=Ann&longuri=https://b.example&shortname=b")
     {["a" := "https://a.example"]}).2 !! "a"
  = ({["a" := "https://a.example"]} : gmap string string) !! "a".
Proof.
  apply (do_POST_other_names false (answers 200)
           (post_request "yourname=Ann&longuri=https://b.example&shortname=b")
           {["a" := "https://a.example"]} "a").
  intros more. vm_compute. discriminate.
Defined.

(** X8. No request removes an entry: after any sequence of requests every
    name that was stored is still stored. *)
Theorem registry_never_shrinks (control_check : bool)
    (events : list (network * request)) (memory : gmap string string) :
  dom memory ⊆ dom (serve control_check memory events).
Proof.
  revert memory. induction events as [|[net req] events IH]; intros memory;
    cbn [serve]; [done|].
  etrans; [|apply IH].
  destruct (handle_memory control_check net req memory)
    as [-> | (s & l & _ & ->)]; [done|].
  rewrite dom_insert_L. set_solver.
Qed.

(** X9. GET requests leave no trace: the dictionary after a sequence of
    requests is the one after its POST requests alone. *)
Theorem GET_requests_leave_no_trace (control_check : bool)
    (events : list (network * request)) (memory : gmap string string) :
  serve control_check memory events
  = serve control_check memory (filter (fun ev => is_POST ev = true) events).
Proof.
  revert memory. induction events as [|[net req] events IH]; intros memory;
    [done|].
  cbn [serve]. destruct (command req) eqn:Hc.
  - rewrite filter_cons_False by (unfold is_POST; cbn; by rewrite Hc).
    unfold handle. rewrite Hc, do_GET_memory. apply IH.
  - rewrite filter_cons_True by (unfold is_POST; cbn; by rewrite Hc).
    cbn [serve]. apply IH.
Qed.


(** X11. [do_POST] depends on the network only through the truth of what
    [CheckURI] returns: two networks on which the check of every URI has the
    same truth value give the same response and the same dictionary.  That
    [CheckURI] returns [None] after a status other than 200 and [False]
    after an exception makes no difference to the handler. *)
Theorem only_truth_of_check_matters (control_check : bool)
    (net net' : network) (req : request) (memory : gmap string string) :
  (∀ uri, truth (CheckURI net uri default_timeout)
          = truth (CheckURI net' uri default_timeout)) ->
  do_POST control_check net req memory = do_POST control_check net' req memory.
Proof.
  intros Hnet. unfold do_POST. run_py. unfold contains, getitem.
  fold (params req).
  destruct (params req !! "yourname") as [[|y more]|]; cbn; [done| |done].
  destruct (Cookies.setitem control_check "yourname" y) as [m|e]; cbn; [|done].
  destruct (params req !! "longuri") as [[|l more_l]|];
    destruct (params req !! "shortname") as [[|s more_s]|]; cbn; try done.
  by rewrite (Hnet l).
Qed.

Lemma only_truth_of_check_matters_witness :
  do_POST false (answers 404)
    (post_request "yourname=Ann&longuri=https://example.com&shortname=ex") ∅
  = do_POST false unreachable
      (post_request "yourname=Ann&longuri=https://example.com&shortname=ex") ∅.
Proof.
  apply (only_truth_of_check_matters false (answers 404) unreachable).
  intros uri. reflexivity.
Defined.

(** X12. For a name of the visitor made of letters, digits and the other
    characters that a cookie takes unquoted, on either version of the cookie
    library, the registration that succeeds sends the header Set-Cookie with
    exactly the text yourname=<name>; Domain=localhost; Max-Age=600. *)
Theorem set_cookie_text (control_check : bool) (net : network)
    (req : request) (memory : gmap string string)
    (yourname longuri shortname : string) (more more_l more_s : list string) :
  Cookies._is_legal_key yourname = true ->
  params req !! "yourname" = Some (yourname :: more) ->
  params req !! "longuri" = Some (longuri :: more_l) ->
  params req !! "shortname" = Some (shortname :: more_s) ->
  net longuri 5 = Response 200 ->
  do_POST control_check net req memory
  = (Ok {| status := 303;
           headers := [("Location", "/");
                       ("Set-Cookie",
                        "yourname=" +:+ yourname
                        +:+ "; Domain=localhost; Max-Age=600")];
           content := EmptyString |},
     <[shortname := longuri]> memory).
Proof.
  intros Hk Hy Hl Hs Hn.
  destruct (legal_accepted control_check yourname Hk) as [Hq Hc].
  rewrite (do_POST_registered _ _ _ _ _ _ _ _ _ _ Hy Hc Hl Hs)
    by (by apply truth_CheckURI).
  unfold registered, yourname_cookie, Cookies.OutputString.
  cbn [Cookies.key Cookies.coded_value Cookies.domain Cookies.max_age].
  rewrite Hq. do 3 f_equal.
Qed.

Lemma set_cookie_text_witness :
  do_POST true (answers 200)
    (post_request "yourname=Ann&longuri=https://example.com&shortname=ex") ∅
  = (Ok {| status := 303;
           headers := [("Location", "/");
                       ("Set-Cookie",
                        "yourname=" +:+ "Ann"
                        +:+ "; Domain=localhost; Max-Age=600")];
           content := EmptyString |},
     <["ex" := "https://example.com"]> ∅).
Proof.
  exact (set_cookie_text true (answers 200)
           (post_request "yourname=Ann&longuri=https://example.com&shortname=ex")
           ∅ "Ann" "https://example.com" "ex" [] [] []
           eq_refl eq_refl eq_refl eq_refl eq_refl).
Defined.


(** ** Requests in sequence *)



(** X15. Of two registrations of one short name that both succeed, the
    later one is kept: the dictionary after both is the one that the second
    alone would have left. *)
Theorem later_registration_wins (control_check : bool) (net1 net2 : network)
    (req1 req2 : request) (memory : gmap string string)
    (y1 y2 l1 l2 shortname : string) (m1 m2 ml1 ml2 ms1 ms2 : list string) :
  params req1 !! "yourname" = Some (y1 :: m1) ->
  params req2 !! "yourname" = Some (y2 :: m2) ->
  cookie_accepts control_check y1 = true ->
  cookie_accepts control_check y2 = true ->
  params req1 !! "longuri" = Some (l1 :: ml1) ->
  params req2 !! "longuri" = Some (l2 :: ml2) ->
  params req1 !! "shortname" = Some (shortname :: ms1) ->
  params req2 !! "shortname" = Some (shortname :: ms2) ->
  net1 l1 5 = Response 200 ->
  net2 l2 5 = Response 200 ->
  let after_first := (do_POST control_check net1 req1 memory).2 in
  let after_both := (do_POST control_check net2 req2 after_first).2 in
  after_first !! shortname = Some l1
  ∧ after_both !! shortname = Some l2
  ∧ after_both = (do_POST control_check net2 req2 memory).2.
Proof.
  intros Hy1 Hy2 Hc1 Hc2 Hl1 Hl2 Hs1 Hs2 Hn1 Hn2 after_first after_both.
  unfold after_both, after_first.
  rewrite (do_POST_registered _ net1 req1 _ _ _ _ _ _ _ Hy1 Hc1 Hl1 Hs1)
    by (by apply truth_CheckURI).
  rewrite !(do_POST_registered _ net2 req2 _ _ _ _ _ _ _ Hy2 Hc2 Hl2 Hs2)
    by (by apply truth_CheckURI).
  cbn [snd]. split_and!.
  - apply lookup_insert_eq.
  - apply lookup_insert_eq.
  - apply insert_insert_eq.
Qed.

Lemma later_registration_wins_witness :
  let req1 := post_request "yourname=Ann&longuri=https://a.example&shortname=ex" in
  let req2 := post_request "yourname=Bob&longuri=https://b.example&shortname=ex" in
  let after_first := (do_POST false (answers 200) req1 ∅).2 in
  let after_both := (do_POST false (answers 200) req2 after_first).2 in
  after_first !! "ex" = Some "https://a.example"
  ∧ after_both !! "ex" = Some "https://b.example"
  ∧ after_both = (do_POST false (answers 200) req2 ∅).2.
Proof.
  exact (later_registration_wins false (answers 200) (answers 200)
           (post_request "yourname=Ann&longuri=https://a.example&shortname=ex")
           (post_request "yourname=Bob&longuri=https://b.example&shortname=ex")
           ∅ "Ann" "Bob" "https://a.example" "https://b.example" "ex"
           [] [] [] [] [] []
           eq_refl eq_refl eq_refl eq_refl eq_refl eq_refl eq_refl eq_refl
           eq_refl eq_refl).
Defined.


(** ** The cookie *)








